(** * Document load controller of [src/index.js]

    The entry file keeps two module-level flags, a drag-and-drop cleanup
    handle and a handful of promise continuations.  JavaScript handlers run
    to completion on one thread, so every handler and every promise
    continuation is one atomic transition of the session state.  The
    environment (user, network, viewer library) chooses which transition
    happens next; it is the [Event] type below. *)

From Stdlib.Strings Require Import Byte.
From stdpp Require Import base list gmap strings.

Open Scope string_scope.

(** ** Values exchanged with the platform *)

Definition Bytes := list Byte.byte.

(** What [load] receives as [pdfArrayBuffers]: the value [processFiles]
    resolves with (an array of buffers) or the single buffer produced by
    [response.arrayBuffer()]. *)
Inductive Document :=
| ArrayBuffers (bufs : list Bytes)
| ArrayBuffer (buf : Bytes).

Inductive Result (A : Type) :=
| Fulfilled (a : A)
| Rejected (message : string).
Arguments Fulfilled {A} a.
Arguments Rejected {A} message.

(** Continuations waiting on a promise. *)
Inductive Task :=
| DropRead                      (* processFiles(files) started by onDrop *)
| PickRead                      (* processFiles([...files]) of #selectFile *)
| WsFetch                       (* fetch(...) in callWs *)
| WsBody (body : list Bytes)    (* re-streamed body, then arrayBuffer() *)
| DlFetch                       (* fetch(...) in download *)
| DlBlob (body : list Bytes)    (* res.blob() in download *)
| ViewerLoad.                   (* PSPDFKit.load(configuration) *)

(** Calls made to the outside world, in program order. *)
Inductive Effect :=
| ConsoleInfo (text : string)
| ConsoleError (message : string)
| Alert (message : string)
| Confirm (text : string) (answer : bool)
| PSPDFKit_unload (container : string)
| PSPDFKit_load (container : string) (document : Document) (promise : nat)
| AddEventListener (instance : nat) (event : string) (handler : nat)
| ProcessFiles (files : list string) (promise : nat)
| Fetch (url : string) (promise : nat)
| RemoveDropListener
| ClassListAdd (selector cls : string)
| ResetInputValue
| AppendChild (href : nat) (download : string)
| RemoveChild (href : nat)
| RevokeObjectURL (url : nat).

(** ** Session state *)

Record State := mkState {
  hasUnsavedAnnotations : bool;
  isAlreadyLoaded : bool;
  destroyListener : bool;          (* false once the variable holds null *)
  dropAttached : bool;             (* the listener dragDrop installed on #body *)
  observers : list bool;           (* [initialized] cell of every handler closure *)
  pending : gmap nat Task;
  nextPromise : nat;
  objectURLs : gmap nat Bytes;
  nextURL : nat;
  downloads : list (string * Bytes);
  log : list Effect
}.

Definition init : State :=
  {| hasUnsavedAnnotations := false;
     isAlreadyLoaded := false;
     destroyListener := true;
     dropAttached := true;
     observers := [];
     pending := ∅;
     nextPromise := 0;
     objectURLs := ∅;
     nextURL := 0;
     downloads := [];
     log := [] |}.

Definition set_hasUnsavedAnnotations (b : bool) (s : State) : State :=
  mkState b (isAlreadyLoaded s) (destroyListener s) (dropAttached s)
    (observers s) (pending s) (nextPromise s) (objectURLs s) (nextURL s)
    (downloads s) (log s).

Definition set_isAlreadyLoaded (b : bool) (s : State) : State :=
  mkState (hasUnsavedAnnotations s) b (destroyListener s) (dropAttached s)
    (observers s) (pending s) (nextPromise s) (objectURLs s) (nextURL s)
    (downloads s) (log s).

Definition set_destroyListener (b : bool) (s : State) : State :=
  mkState (hasUnsavedAnnotations s) (isAlreadyLoaded s) b (dropAttached s)
    (observers s) (pending s) (nextPromise s) (objectURLs s) (nextURL s)
    (downloads s) (log s).

Definition set_dropAttached (b : bool) (s : State) : State :=
  mkState (hasUnsavedAnnotations s) (isAlreadyLoaded s) (destroyListener s) b
    (observers s) (pending s) (nextPromise s) (objectURLs s) (nextURL s)
    (downloads s) (log s).

Definition set_observers (o : list bool) (s : State) : State :=
  mkState (hasUnsavedAnnotations s) (isAlreadyLoaded s) (destroyListener s)
    (dropAttached s) o (pending s) (nextPromise s) (objectURLs s) (nextURL s)
    (downloads s) (log s).

Definition set_downloads (d : list (string * Bytes)) (s : State) : State :=
  mkState (hasUnsavedAnnotations s) (isAlreadyLoaded s) (destroyListener s)
    (dropAttached s) (observers s) (pending s) (nextPromise s) (objectURLs s)
    (nextURL s) d (log s).

Definition emit (e : Effect) (s : State) : State :=
  mkState (hasUnsavedAnnotations s) (isAlreadyLoaded s) (destroyListener s)
    (dropAttached s) (observers s) (pending s) (nextPromise s) (objectURLs s)
    (nextURL s) (downloads s) (log s ++ [e]).

(** A new pending promise; its identifier is the allocation counter. *)
Definition new_promise (t : Task) (s : State) : nat * State :=
  (nextPromise s,
   mkState (hasUnsavedAnnotations s) (isAlreadyLoaded s) (destroyListener s)
     (dropAttached s) (observers s) (<[nextPromise s := t]> (pending s))
     (S (nextPromise s)) (objectURLs s) (nextURL s) (downloads s) (log s)).

(** A promise settles once: its continuation leaves the table. *)
Definition settle (p : nat) (s : State) : State :=
  mkState (hasUnsavedAnnotations s) (isAlreadyLoaded s) (destroyListener s)
    (dropAttached s) (observers s) (delete p (pending s)) (nextPromise s)
    (objectURLs s) (nextURL s) (downloads s) (log s).

(** ** Platform objects used by [callWs] and [download] *)

Module Browser.

(** [new Blob(parts)]: the parts laid end to end. *)
Definition Blob_new (parts : list Bytes) : Bytes := concat parts.

(** [res.blob()] and [response.arrayBuffer()] read the whole body. *)
Definition blob (body : list Bytes) : Bytes := concat body.
Definition arrayBuffer (body : list Bytes) : Bytes := concat body.

Definition createObjectURL (b : Bytes) (s : State) : nat * State :=
  (nextURL s,
   mkState (hasUnsavedAnnotations s) (isAlreadyLoaded s) (destroyListener s)
     (dropAttached s) (observers s) (pending s) (nextPromise s)
     (<[nextURL s := b]> (objectURLs s)) (S (nextURL s)) (downloads s)
     (log s)).

Definition revokeObjectURL (u : nat) (s : State) : State :=
  emit (RevokeObjectURL u)
    (mkState (hasUnsavedAnnotations s) (isAlreadyLoaded s)
       (destroyListener s) (dropAttached s) (observers s) (pending s)
       (nextPromise s) (delete u (objectURLs s)) (nextURL s) (downloads s)
       (log s)).

(** Clicking an anchor that carries a [download] attribute saves what its
    [href] designates under that name. *)
Definition click (href : nat) (download : string) (s : State) : State :=
  match objectURLs s !! href with
  | Some b => set_downloads (downloads s ++ [(download, b)]) s
  | None => s
  end.

End Browser.

(** ** The program *)

Definition confirmText : string :=
  "You have unsaved changes. By continuing, you will lose those changes.".

(** [createOnAnnotationsChange]: a closure over a fresh [initialized]
    cell; the handler is named by the position of its cell. *)
Definition createOnAnnotationsChange (s : State) : nat * State :=
  (length (observers s), set_observers (observers s ++ [false]) s).

(** The handler returned by [createOnAnnotationsChange]. *)
Definition onAnnotationsChange (h : nat) (s : State) : State :=
  match observers s !! h with
  | Some true => set_hasUnsavedAnnotations true s
  | Some false => set_observers (<[h := true]> (observers s)) s
  | None => s
  end.

Definition load (pdfArrayBuffers : Document) (s : State) : State :=
  let s :=
    if isAlreadyLoaded s then
      set_hasUnsavedAnnotations false
        (emit (PSPDFKit_unload ".App")
           (emit (ConsoleInfo "Destroyed previous instance") s))
    else s in
  let s := set_isAlreadyLoaded true s in
  let '(p, s) := new_promise ViewerLoad s in
  emit (PSPDFKit_load ".App" pdfArrayBuffers p) s.

(** The [.then(...)] and [.catch(console.error)] attached in [load]. *)
Definition onViewerSettled (p : nat) (r : Result unit) (s : State) : State :=
  match r with
  | Fulfilled _ =>
      let '(h, s) := createOnAnnotationsChange s in
      emit (AddEventListener p "annotations.change" h) s
  | Rejected message => emit (ConsoleError message) s
  end.

Definition onFail (message : string) (s : State) : State :=
  emit (Alert message) s.

(** [answer] is what the user would reply to [window.confirm]; the dialog
    is only shown when the left operand of [&&] is true. *)
Definition shouldPreventLoad (answer : bool) (s : State) : bool * State :=
  if hasUnsavedAnnotations s
  then (negb answer, emit (Confirm confirmText answer) s)
  else (false, s).

Definition destroyDragAndDrop (s : State) : State :=
  if destroyListener s then
    set_destroyListener false
      (emit (ClassListAdd ".drag-text" "is-hidden")
         (emit RemoveDropListener (set_dropAttached false s)))
  else s.

Definition onDrop (files : list string) (answer : bool) (s : State) : State :=
  let '(prevent, s) := shouldPreventLoad answer s in
  if prevent then s
  else
    let '(p, s) := new_promise DropRead s in
    emit (ProcessFiles files p) s.

Definition onDropRead (r : Result Document) (s : State) : State :=
  match r with
  | Fulfilled arrayBuffers => load arrayBuffers (destroyDragAndDrop s)
  | Rejected message => onFail message s
  end.

Definition onFileSelectSuccess (pdfArrayBuffers : Document) (s : State) : State :=
  load pdfArrayBuffers (destroyDragAndDrop s).

Definition onPickRead (r : Result Document) (s : State) : State :=
  match r with
  | Fulfilled arrayBuffers => onFileSelectSuccess arrayBuffers s
  | Rejected message => onFail message s
  end.

(** The [change] listener of [#selectFile]. *)
Definition onSelectFileChange (files : list string) (answer : bool) (s : State)
  : State :=
  let '(stop, s) :=
    if Nat.eqb (length files) 0 then (true, s)
    else shouldPreventLoad answer s in
  if stop then emit ResetInputValue s
  else
    let '(p, s) := new_promise PickRead s in
    emit ResetInputValue (emit (ProcessFiles files p) s).

Definition callWs (s : State) : State :=
  let '(p, s) := new_promise WsFetch s in
  emit (Fetch "/assets/example.pdf" p) s.

(** The [start] loop of the stream built in [callWs]: [reader] holds the
    chunks still to be read, [queue] what has been enqueued so far. *)
Fixpoint pump (reader queue : list Bytes) : list Bytes :=
  match reader with
  | [] => queue
  | value :: reader => pump reader (queue ++ [value])
  end.

Definition onWsFetched (r : Result (list Bytes)) (s : State) : State :=
  match r with
  | Fulfilled body => snd (new_promise (WsBody body) s)
  | Rejected _ => s
  end.

Definition onWsBody (body : list Bytes) (s : State) : State :=
  load (ArrayBuffer (Browser.arrayBuffer (pump body []))) s.

Definition download (s : State) : State :=
  let '(p, s) := new_promise DlFetch s in
  emit (Fetch "/assets/example.pdf" p) s.

Definition onDlFetched (r : Result (list Bytes)) (s : State) : State :=
  match r with
  | Fulfilled body => snd (new_promise (DlBlob body) s)
  | Rejected _ => s
  end.

(** The part of [download] after [await res.blob()]. *)
Definition onDlBlob (body : list Bytes) (s : State) : State :=
  let blob := Browser.blob body in
  let newBlob := Browser.Blob_new [blob] in
  let '(blobUrl, s) := Browser.createObjectURL newBlob s in
  let s := emit (AppendChild blobUrl "a.pdf") s in
  let s := Browser.click blobUrl "a.pdf" s in
  let s := emit (RemoveChild blobUrl) s in
  Browser.revokeObjectURL blobUrl s.

(** ** The event loop *)

Inductive Event :=
| Drop (files : list string) (answer : bool)
| SelectFile (files : list string) (answer : bool)
| ClickCallAjax
| ClickDownload
| FilesRead (p : nat) (r : Result Document)
| Fetched (p : nat) (r : Result (list Bytes))
| BodyRead (p : nat) (r : Result unit)
| ViewerSettled (p : nat) (r : Result unit)
| AnnotationsChange (h : nat).

Definition step (s : State) (e : Event) : State :=
  match e with
  | Drop files answer =>
      if dropAttached s then onDrop files answer s else s
  | SelectFile files answer => onSelectFileChange files answer s
  | ClickCallAjax => callWs s
  | ClickDownload => download s
  | FilesRead p r =>
      match pending s !! p with
      | Some DropRead => onDropRead r (settle p s)
      | Some PickRead => onPickRead r (settle p s)
      | _ => s
      end
  | Fetched p r =>
      match pending s !! p with
      | Some WsFetch => onWsFetched r (settle p s)
      | Some DlFetch => onDlFetched r (settle p s)
      | _ => s
      end
  | BodyRead p r =>
      match pending s !! p, r with
      | Some (WsBody body), Fulfilled _ => onWsBody body (settle p s)
      | Some (DlBlob body), Fulfilled _ => onDlBlob body (settle p s)
      | Some (WsBody _), Rejected _ | Some (DlBlob _), Rejected _ => settle p s
      | _, _ => s
      end
  | ViewerSettled p r =>
      match pending s !! p with
      | Some ViewerLoad => onViewerSettled p r (settle p s)
      | _ => s
      end
  | AnnotationsChange h => onAnnotationsChange h s
  end.

Definition run (s : State) (es : list Event) : State := foldl step s es.

Inductive reachable : State -> Prop :=
| reachable_init : reachable init
| reachable_step s e : reachable s -> reachable (step s e).

Close Scope string_scope.

(** ** Concrete sessions used as test inputs *)

Definition pdf1 : list Bytes := [[x25; x50]; [x44; x46]].

(** A document fetched from the server and opened, its initialization
    event delivered. *)
Definition opened_by_fetch : list Event :=
  [ClickCallAjax; Fetched 0 (Fulfilled pdf1); BodyRead 1 (Fulfilled ());
   ViewerSettled 2 (Fulfilled ()); AnnotationsChange 0].

(** The same session after one annotation edit. *)
Definition edited_after_fetch : list Event :=
  opened_by_fetch ++ [AnnotationsChange 0].

(** The remote asset has been fetched; [load] has not been called yet. *)
Definition fetched_not_loaded : list Event :=
  [ClickCallAjax; Fetched 0 (Fulfilled pdf1)].

(** [load] runs for the first time and the viewer rejects the document. *)
Definition first_load_rejected : list Event :=
  fetched_not_loaded ++
  [BodyRead 1 (Fulfilled ()); ViewerSettled 2 (Rejected "bad pdf")].

(** The edited session, then a click on [#callajax] answered by the
    server. *)
Definition fetch_over_edits : list Event :=
  edited_after_fetch ++
  [ClickCallAjax; Fetched 3 (Fulfilled pdf1); BodyRead 4 (Fulfilled ())].

(** A selection is being read while a fetched document is opened and
    edited. *)
Definition edited_while_reading : list Event :=
  [SelectFile ["b.pdf"] true; ClickCallAjax; Fetched 1 (Fulfilled pdf1);
   BodyRead 2 (Fulfilled ()); ViewerSettled 3 (Fulfilled ());
   AnnotationsChange 0; AnnotationsChange 0].

(** ** Vocabulary of the statements *)

(** The effects a transition adds to the log. *)
Definition emitted (s : State) (e : Event) : list Effect :=
  drop (length (log s)) (log (step s e)).

(** No viewer has been asked for yet. *)
Definition untouched (s : State) : Prop :=
  hasUnsavedAnnotations s = false /\ observers s = [] /\
  forall p, pending s !! p <> Some ViewerLoad.

(** The flags as a pair. *)
Definition flags (s : State) : bool * bool :=
  (isAlreadyLoaded s, hasUnsavedAnnotations s).

(** [n] events delivered to observer [h]. *)
Definition fire (n h : nat) (s : State) : State :=
  run s (replicate n (AnnotationsChange h)).

(** Everything but the log is the same in both states. *)
Definition same_session (s s' : State) : Prop :=
  hasUnsavedAnnotations s' = hasUnsavedAnnotations s /\
  isAlreadyLoaded s' = isAlreadyLoaded s /\
  destroyListener s' = destroyListener s /\
  dropAttached s' = dropAttached s /\
  observers s' = observers s /\
  pending s' = pending s /\
  nextPromise s' = nextPromise s /\
  downloads s' = downloads s.

(** How many effects of a log satisfy [p]. *)
Fixpoint occurrences (p : Effect -> bool) (l : list Effect) : nat :=
  match l with
  | [] => 0
  | e :: l => (if p e then 1 else 0) + occurrences p l
  end.

Definition is_load (e : Effect) : bool :=
  match e with PSPDFKit_load _ _ _ => true | _ => false end.

Definition is_unload (e : Effect) : bool :=
  match e with PSPDFKit_unload _ => true | _ => false end.

Definition is_remove_drop (e : Effect) : bool :=
  match e with RemoveDropListener => true | _ => false end.

(** A promise of the program settling by rejection. *)
Definition is_rejection (e : Event) : bool :=
  match e with
  | FilesRead _ (Rejected _) | Fetched _ (Rejected _)
  | BodyRead _ (Rejected _) | ViewerSettled _ (Rejected _) => true
  | _ => false
  end.

(** The part of the session the viewer and the drop zone live in. *)
Definition same_viewer_session (s s' : State) : Prop :=
  hasUnsavedAnnotations s' = hasUnsavedAnnotations s /\
  isAlreadyLoaded s' = isAlreadyLoaded s /\
  destroyListener s' = destroyListener s /\
  dropAttached s' = dropAttached s /\
  observers s' = observers s.

(** ** Proof tools *)

(** Unfolds the handlers and reduces the record projections in one
    call-by-need pass, after every state variable has been replaced by its
    fields: unfolding the nested setters on their own would copy the state
    once per field and per level. *)
Ltac open_states :=
  repeat match goal with s : State |- _ => destruct s end.

Ltac handlers :=
  open_states;
  lazy beta iota zeta delta
    [step onDrop onDropRead onPickRead onFileSelectSuccess
     onSelectFileChange callWs download onWsFetched onWsBody onDlFetched
     onDlBlob onViewerSettled onAnnotationsChange load destroyDragAndDrop
     shouldPreventLoad onFail createOnAnnotationsChange
     Browser.revokeObjectURL Browser.click Browser.createObjectURL
     new_promise settle emit set_hasUnsavedAnnotations
     set_isAlreadyLoaded set_destroyListener set_dropAttached
     set_observers set_downloads
     hasUnsavedAnnotations isAlreadyLoaded destroyListener dropAttached
     observers pending nextPromise objectURLs nextURL downloads log
     fst snd negb] in *.

Ltac fields :=
  cbn [hasUnsavedAnnotations isAlreadyLoaded destroyListener dropAttached
       observers pending nextPromise objectURLs nextURL downloads log
       fst snd negb] in *.

(** Case analysis on what a handler branches on: a flag, a reply, the
    outcome of a promise, a table lookup, the emptiness of a selection. *)
Ltac cases :=
  repeat (match goal with
          | |- context [if ?x then _ else _] => is_var x; destruct x
          | |- context [match ?x with _ => _ end] => is_var x; destruct x
          | |- context [match ?m !! ?k with _ => _ end] =>
              destruct (m !! k) eqn:?
          | |- context [if Nat.eqb ?a ?b then _ else _] =>
              destruct (Nat.eqb a b) eqn:?
          end; lazy beta iota zeta).

Ltac by_cases := handlers; cases; try done.

(** ** General facts about the event loop *)

Lemma run_app s (es es' : list Event) : run s (es ++ es') = run (run s es) es'.
Proof. apply foldl_app. Qed.

Lemma run_snoc s (es : list Event) e : run s (es ++ [e]) = step (run s es) e.
Proof. by rewrite run_app. Qed.

Lemma reachable_run s es : reachable s -> reachable (run s es).
Proof.
  revert s. induction es as [|e es IH]; intros s Hs; [done|].
  apply IH. by constructor.
Qed.

Lemma reachable_trace s : reachable s -> exists es, s = run init es.
Proof.
  induction 1 as [|s e _ [es ->]]; [by exists []|].
  exists (es ++ [e]). by rewrite run_snoc.
Qed.

Lemma log_grows s e : exists new, log (step s e) = log s ++ new.
Proof.
  destruct e; by_cases;
    rewrite <- ?app_assoc; try (eexists; reflexivity);
    exists []; by rewrite app_nil_r.
Qed.

Lemma log_step s e : log (step s e) = log s ++ emitted s e.
Proof.
  unfold emitted. destruct (log_grows s e) as [new ->].
  by rewrite drop_app_length.
Qed.

Lemma emitted_eq s e new : log (step s e) = log s ++ new -> emitted s e = new.
Proof. unfold emitted. intros ->. by rewrite drop_app_length. Qed.

(** *** [isAlreadyLoaded] never goes back to false *)

Lemma loaded_step s e :
  isAlreadyLoaded s = true -> isAlreadyLoaded (step s e) = true.
Proof. intros H. destruct e; by_cases. Qed.

Lemma loaded_run s es :
  isAlreadyLoaded s = true -> isAlreadyLoaded (run s es) = true.
Proof.
  revert s. induction es as [|e es IH]; intros s H; [done|].
  apply IH. by apply loaded_step.
Qed.

(** *** Before the first call of [load] nothing of a viewer exists *)

Lemma untouched_step s e :
  (isAlreadyLoaded s = false -> untouched s) ->
  isAlreadyLoaded (step s e) = false -> untouched (step s e).
Proof.
  intros Hinv Hl.
  destruct (isAlreadyLoaded s) eqn:Hs.
  { by rewrite (loaded_step s e Hs) in Hl. }
  destruct (Hinv eq_refl) as (Hd & Ho & Hp). clear Hinv.
  unfold untouched.
  destruct e; revert Hl; handlers; subst; lazy beta iota zeta; cases;
    try done; intros _;
    try (exfalso; eapply Hp; eassumption);
    (split; [done|split; [done|]]); intros q;
    try apply Hp;
    repeat match goal with
           | |- <[?i := _]> _ !! ?q <> _ =>
               destruct (decide (i = q)) as [->|];
               [by rewrite lookup_insert_eq | rewrite lookup_insert_ne by done]
           | |- delete ?i _ !! ?q <> _ =>
               destruct (decide (i = q)) as [->|];
               [by rewrite lookup_delete_eq | rewrite lookup_delete_ne by done]
           end; try apply Hp.
Qed.

Lemma reachable_untouched s :
  reachable s -> isAlreadyLoaded s = false -> untouched s.
Proof.
  induction 1 as [|s e _ IH]; [by repeat split|].
  by apply untouched_step.
Qed.

Lemma dirty_is_loaded s :
  reachable s -> hasUnsavedAnnotations s = true -> isAlreadyLoaded s = true.
Proof.
  intros Hr Hd. destruct (isAlreadyLoaded s) eqn:Hl; [done|].
  destruct (reachable_untouched s Hr Hl) as [Hf _]. congruence.
Qed.

(** *** The dirty flag is only ever raised by an initialized observer *)

Lemma dirty_step s e :
  (hasUnsavedAnnotations s = true -> true ∈ observers s) ->
  hasUnsavedAnnotations (step s e) = true -> true ∈ observers (step s e).
Proof.
  intros Hinv.
  destruct e; handlers; fields; cases; try done; intros Hd;
    try (by apply Hinv);
    try (apply elem_of_app; left; by apply Hinv).
  - by eapply list_elem_of_lookup_2.
  - apply list_elem_of_lookup. exists h.
    apply list_lookup_insert_eq. by eapply lookup_lt_Some.
Qed.

Lemma reachable_dirty s :
  reachable s -> hasUnsavedAnnotations s = true -> true ∈ observers s.
Proof.
  induction 1 as [|s e _ IH]; [done|]. by apply dirty_step.
Qed.

Lemma clean_before_first_observer s :
  reachable s -> observers s = [] -> hasUnsavedAnnotations s = false.
Proof.
  intros Hr Ho. destruct (hasUnsavedAnnotations s) eqn:Hd; [|done].
  pose proof (reachable_dirty s Hr Hd) as Hin. rewrite Ho in Hin.
  by apply elem_of_nil in Hin.
Qed.

(** *** An observer that has seen its first event stays initialized *)

Lemma initialized_step s e h :
  observers s !! h = Some true -> observers (step s e) !! h = Some true.
Proof.
  intros Hh.
  destruct e; handlers; fields; cases; try done;
    try (by apply lookup_app_l_Some).
  destruct (decide (h0 = h)) as [->|Hne].
  - apply list_lookup_insert_eq. by eapply lookup_lt_Some.
  - by rewrite list_lookup_insert_ne.
Qed.

Lemma initialized_run s es h :
  observers s !! h = Some true -> observers (run s es) !! h = Some true.
Proof.
  revert s. induction es as [|e es IH]; intros s H; [done|].
  apply IH. by apply initialized_step.
Qed.

(** *** The cleanup handle and the listener it removes go together *)

Lemma drop_handle_step s e :
  dropAttached s = destroyListener s ->
  dropAttached (step s e) = destroyListener (step s e).
Proof. intros H. destruct e; by_cases. Qed.

Lemma reachable_drop_handle s :
  reachable s -> dropAttached s = destroyListener s.
Proof.
  induction 1 as [|s e _ IH]; [done|]. by apply drop_handle_step.
Qed.

Lemma detached_step s e :
  dropAttached s = false -> dropAttached (step s e) = false.
Proof. intros H. destruct e; by_cases. Qed.

Lemma detached_run s es :
  dropAttached s = false -> dropAttached (run s es) = false.
Proof.
  revert s. induction es as [|e es IH]; intros s H; [done|].
  apply IH. by apply detached_step.
Qed.

Lemma handle_null_step s e :
  destroyListener s = false -> destroyListener (step s e) = false.
Proof. intros H. destruct e; by_cases. Qed.

Lemma handle_null_run s es :
  destroyListener s = false -> destroyListener (run s es) = false.
Proof.
  revert s. induction es as [|e es IH]; intros s H; [done|].
  apply IH. by apply handle_null_step.
Qed.

(** *** The copy loop of [callWs] *)

Lemma pump_spec reader queue : pump reader queue = (queue ++ reader)%list.
Proof.
  revert queue. induction reader as [|v r IH]; intros q; simpl.
  - by rewrite app_nil_r.
  - by rewrite IH, <- app_assoc.
Qed.

(** ** The lifecycle of [load] *)

Lemma load_spec doc s :
  isAlreadyLoaded (load doc s) = true /\
  hasUnsavedAnnotations (load doc s)
    = (if isAlreadyLoaded s then false else hasUnsavedAnnotations s) /\
  observers (load doc s) = observers s /\
  pending (load doc s) = <[nextPromise s := ViewerLoad]> (pending s) /\
  nextPromise (load doc s) = S (nextPromise s) /\
  log (load doc s)
    = (log s ++
       (if isAlreadyLoaded s
        then [ConsoleInfo "Destroyed previous instance"; PSPDFKit_unload ".App"]
        else []) ++
       [PSPDFKit_load ".App" doc (nextPromise s)])%list.
Proof.
  handlers; cases; repeat split; try done.
  by rewrite <- !app_assoc.
Qed.

(** C9. [isAlreadyLoaded] is monotone: it is false at start-up; a call of
    [load] sets it to true at once, while the promise of [PSPDFKit.load] is
    still pending; no transition of the event loop clears it, in particular
    not the rejection of that promise. *)
Theorem C9_isAlreadyLoaded_monotone :
  isAlreadyLoaded init = false /\
  (forall doc s,
      isAlreadyLoaded (load doc s) = true /\
      pending (load doc s) !! nextPromise s = Some ViewerLoad) /\
  (forall s e, isAlreadyLoaded s = true -> isAlreadyLoaded (step s e) = true) /\
  (forall s es, isAlreadyLoaded s = true -> isAlreadyLoaded (run s es) = true) /\
  (forall doc s message,
      isAlreadyLoaded
        (step (load doc s) (ViewerSettled (nextPromise s) (Rejected message)))
      = true).
Proof.
  split; [done|]. split; [|split; [|split]].
  - intros doc s. destruct (load_spec doc s) as (Hl & _ & _ & Hp & _).
    split; [done|]. rewrite Hp. apply lookup_insert_eq.
  - apply loaded_step.
  - apply loaded_run.
  - intros doc s message. apply loaded_step, load_spec.
Qed.

Lemma C9_isAlreadyLoaded_monotone_witness :
  isAlreadyLoaded (run init opened_by_fetch) = true /\
  isAlreadyLoaded
    (step (run init opened_by_fetch) (ViewerSettled 2 (Rejected "x"))) = true.
Proof.
  split; [reflexivity|].
  apply (proj1 (proj2 (proj2 C9_isAlreadyLoaded_monotone))). reflexivity.
Defined.

Lemma cleared_by_teardown t e :
  hasUnsavedAnnotations t = true ->
  hasUnsavedAnnotations (step t e) = false ->
  exists pre d p,
    emitted t e
    = (pre ++ [ConsoleInfo "Destroyed previous instance";
               PSPDFKit_unload ".App"; PSPDFKit_load ".App" d p])%list.
Proof.
  intros Ht. unfold emitted.
  destruct e; handlers; subst; lazy beta iota zeta; cases; try done;
    intros _; rewrite <- ?app_assoc, drop_app_length;
    first [ by eexists [], _, _ | by eexists [_; _], _, _ ].
Qed.

(** C5. When [load] is called with [isAlreadyLoaded] true it calls
    [PSPDFKit.unload] exactly once, before [PSPDFKit.load], and leaves
    [hasUnsavedAnnotations] false; and a transition of the event loop takes
    [hasUnsavedAnnotations] from true to false only if it performs such a
    teardown, followed by [PSPDFKit.load]. *)
Theorem C5_teardown_once_then_load doc s :
  isAlreadyLoaded s = true ->
  log (load doc s)
    = (log s ++ [ConsoleInfo "Destroyed previous instance";
                 PSPDFKit_unload ".App";
                 PSPDFKit_load ".App" doc (nextPromise s)])%list /\
  hasUnsavedAnnotations (load doc s) = false /\
  (forall t e,
      hasUnsavedAnnotations t = true ->
      hasUnsavedAnnotations (step t e) = false ->
      exists pre d p,
        emitted t e
        = (pre ++ [ConsoleInfo "Destroyed previous instance";
                   PSPDFKit_unload ".App"; PSPDFKit_load ".App" d p])%list).
Proof.
  intros Hl. destruct (load_spec doc s) as (_ & Hd & _ & _ & _ & Hlog).
  rewrite Hl in Hd, Hlog. split; [done|]. split; [done|].
  apply cleared_by_teardown.
Qed.

Lemma C5_teardown_once_then_load_witness :
  isAlreadyLoaded (run init edited_after_fetch) = true /\
  hasUnsavedAnnotations (load (ArrayBuffer []) (run init edited_after_fetch))
  = false.
Proof.
  split; [reflexivity|].
  apply (C5_teardown_once_then_load (ArrayBuffer [])
           (run init edited_after_fetch)).
  reflexivity.
Defined.

(** ** The change observer *)

Lemma viewer_fulfilled s p :
  pending s !! p = Some ViewerLoad ->
  step s (ViewerSettled p (Fulfilled ()))
  = emit (AddEventListener p "annotations.change" (length (observers s)))
      (set_observers (observers s ++ [false]) (settle p s)).
Proof. intros Hp. unfold step. by rewrite Hp. Qed.

Lemma viewer_rejected s p message :
  pending s !! p = Some ViewerLoad ->
  step s (ViewerSettled p (Rejected message))
  = emit (ConsoleError message) (settle p s).
Proof. intros Hp. unfold step. by rewrite Hp. Qed.

Lemma observer_first_event t h :
  observers t !! h = Some false ->
  hasUnsavedAnnotations (step t (AnnotationsChange h))
    = hasUnsavedAnnotations t /\
  observers (step t (AnnotationsChange h)) !! h = Some true.
Proof.
  intros Hh. unfold step, onAnnotationsChange. rewrite Hh.
  handlers; fields. split; [done|].
  apply list_lookup_insert_eq. by eapply lookup_lt_Some.
Qed.

Lemma observer_later_event t h :
  observers t !! h = Some true ->
  hasUnsavedAnnotations (step t (AnnotationsChange h)) = true.
Proof. intros Hh. unfold step, onAnnotationsChange. by rewrite Hh. Qed.

Lemma new_observer_cell s p :
  pending s !! p = Some ViewerLoad ->
  observers (step s (ViewerSettled p (Fulfilled ()))) !! length (observers s)
    = Some false /\
  hasUnsavedAnnotations (step s (ViewerSettled p (Fulfilled ())))
    = hasUnsavedAnnotations s.
Proof.
  intros Hp. rewrite (viewer_fulfilled s p Hp). handlers; fields.
  split; [|done]. by rewrite lookup_app_r, Nat.sub_diag.
Qed.

(** C6. When [PSPDFKit.load] fulfils, a new observer is registered for
    [annotations.change] whose [initialized] cell is false and is not shared
    with any earlier observer.  Its first event leaves
    [hasUnsavedAnnotations] as it was; every later event, whatever happened in
    between, sets [hasUnsavedAnnotations] to true. *)
Theorem C6_observer_skips_first_event s p :
  pending s !! p = Some ViewerLoad ->
  let s1 := step s (ViewerSettled p (Fulfilled ())) in
  let h := length (observers s) in
  observers s !! h = None /\
  observers s1 = (observers s ++ [false])%list /\
  log s1 = (log s ++ [AddEventListener p "annotations.change" h])%list /\
  hasUnsavedAnnotations s1 = hasUnsavedAnnotations s /\
  hasUnsavedAnnotations (step s1 (AnnotationsChange h))
    = hasUnsavedAnnotations s /\
  forall es,
    hasUnsavedAnnotations
      (step (run (step s1 (AnnotationsChange h)) es) (AnnotationsChange h))
    = true.
Proof.
  intros Hp s1 h.
  destruct (new_observer_cell s p Hp) as [Hh Hd]. fold s1 h in Hh, Hd.
  destruct (observer_first_event s1 h Hh) as [H1 H2].
  split; [by apply lookup_ge_None_2|].
  split; [by subst s1; rewrite (viewer_fulfilled s p Hp)|].
  split; [by subst s1; rewrite (viewer_fulfilled s p Hp)|].
  split; [done|]. split; [congruence|].
  intros es. by apply observer_later_event, initialized_run.
Qed.

Lemma C6_observer_skips_first_event_witness :
  pending (run init [ClickCallAjax; Fetched 0 (Fulfilled pdf1);
                     BodyRead 1 (Fulfilled ())]) !! 2 = Some ViewerLoad /\
  hasUnsavedAnnotations
    (run init [ClickCallAjax; Fetched 0 (Fulfilled pdf1);
               BodyRead 1 (Fulfilled ()); ViewerSettled 2 (Fulfilled ());
               AnnotationsChange 0]) = false.
Proof.
  split; [reflexivity|].
  apply (C6_observer_skips_first_event
           (run init [ClickCallAjax; Fetched 0 (Fulfilled pdf1);
                      BodyRead 1 (Fulfilled ())]) 2).
  reflexivity.
Defined.

(** ** A rejected viewer load *)

(** C2 as stated fails on the very first load: before the call
    [isAlreadyLoaded] is false, after the rejected load it is true. *)
Lemma C2_first_load_rejected_changes_flag :
  log (run init first_load_rejected)
    = [Fetch "/assets/example.pdf" 0;
       PSPDFKit_load ".App" (ArrayBuffer (concat pdf1)) 2;
       ConsoleError "bad pdf"] /\
  isAlreadyLoaded (run init fetched_not_loaded) = false /\
  isAlreadyLoaded (run init first_load_rejected) = true /\
  flags (run init first_load_rejected) <> flags (run init fetched_not_loaded).
Proof. vm_compute. repeat split; congruence. Qed.

(** C2, amended. When the promise of [PSPDFKit.load] rejects, the message
    goes to [console.error], no observer is attached, and the rejection
    handler changes neither flag: the flags keep the values the synchronous
    part of [load] gave them, that is [isAlreadyLoaded] true and
    [hasUnsavedAnnotations] false if [isAlreadyLoaded] was true before the
    call and unchanged otherwise. *)
Theorem C2_rejected_load_keeps_flags_of_load doc s message :
  let s1 := load doc s in
  let s2 := step s1 (ViewerSettled (nextPromise s) (Rejected message)) in
  log s2 = (log s1 ++ [ConsoleError message])%list /\
  observers s2 = observers s /\
  flags s2 = flags s1 /\
  isAlreadyLoaded s2 = true /\
  hasUnsavedAnnotations s2
    = (if isAlreadyLoaded s then false else hasUnsavedAnnotations s).
Proof.
  intros s1 s2.
  destruct (load_spec doc s) as (Hl & Hd & Ho & Hp & _ & _).
  assert (Hq : pending s1 !! nextPromise s = Some ViewerLoad).
  { subst s1. rewrite Hp. apply lookup_insert_eq. }
  subst s2. rewrite (viewer_rejected s1 _ message Hq).
  unfold flags, emit, settle; fields. by repeat split.
Qed.

(** ** The first successful load *)

(** C3 as stated fails for two events: the observer skips one event only,
    so a second event fired by the viewer during initialization marks the
    freshly loaded document as edited. *)
Lemma C3_two_initialization_events_set_dirty :
  observers (run init [ClickCallAjax; Fetched 0 (Fulfilled pdf1);
                       BodyRead 1 (Fulfilled ())]) = [] /\
  hasUnsavedAnnotations
    (fire 2 0
       (run init [ClickCallAjax; Fetched 0 (Fulfilled pdf1);
                  BodyRead 1 (Fulfilled ()); ViewerSettled 2 (Fulfilled ())]))
  = true.
Proof. vm_compute. done. Qed.

(** C3, amended. In every reachable state in which no load has succeeded
    yet, when a pending [PSPDFKit.load] fulfils and the viewer then delivers
    [n] events to the new observer with [n] at most 1,
    [hasUnsavedAnnotations] is false. *)
Theorem C3_clean_after_first_successful_load s p n :
  reachable s ->
  observers s = [] ->
  pending s !! p = Some ViewerLoad ->
  n <= 1 ->
  hasUnsavedAnnotations
    (fire n (length (observers s)) (step s (ViewerSettled p (Fulfilled ()))))
  = false.
Proof.
  intros Hr Ho Hp Hn.
  pose proof (clean_before_first_observer s Hr Ho) as Hd.
  destruct (new_observer_cell s p Hp) as [Hh H0].
  destruct (observer_first_event _ _ Hh) as [H1 _].
  destruct n as [|[|n]]; [| |lia]; unfold fire; cbn [run foldl replicate];
    congruence.
Qed.

Lemma C3_clean_after_first_successful_load_witness :
  hasUnsavedAnnotations
    (fire 1 0
       (run init [ClickCallAjax; Fetched 0 (Fulfilled pdf1);
                  BodyRead 1 (Fulfilled ()); ViewerSettled 2 (Fulfilled ())]))
  = false.
Proof.
  apply (C3_clean_after_first_successful_load
           (run init [ClickCallAjax; Fetched 0 (Fulfilled pdf1);
                      BodyRead 1 (Fulfilled ())]) 2 1).
  - apply reachable_run, reachable_init.
  - reflexivity.
  - reflexivity.
  - lia.
Defined.

(** ** The confirmation gate of the drop zone and the file picker *)

(** C4. With [hasUnsavedAnnotations] true, the drop handler and the change
    handler of the file picker (for a non-empty selection) call
    [window.confirm] before anything else; when the user declines, nothing
    but that dialog (and, for the picker, the reset of the input's value)
    happens: both flags, the observers, the pending promises and the drop
    listener are as before, and neither [PSPDFKit.unload] nor
    [PSPDFKit.load] is called. *)
Theorem C4_declined_confirmation_aborts s (files : list string) :
  hasUnsavedAnnotations s = true ->
  (dropAttached s = true ->
   forall answer, exists rest,
     emitted s (Drop files answer) = Confirm confirmText answer :: rest) /\
  (files <> [] ->
   forall answer, exists rest,
     emitted s (SelectFile files answer) = Confirm confirmText answer :: rest) /\
  (dropAttached s = true ->
   emitted s (Drop files false) = [Confirm confirmText false]) /\
  (files <> [] ->
   emitted s (SelectFile files false)
   = [Confirm confirmText false; ResetInputValue]) /\
  same_session s (step s (Drop files false)) /\
  same_session s (step s (SelectFile files false)) /\
  (forall x, x ∈ emitted s (Drop files false) ++
                 emitted s (SelectFile files false) ->
             (forall c, x <> PSPDFKit_unload c) /\
             (forall c d p, x <> PSPDFKit_load c d p)).
Proof.
  intros Hd.
  assert (HD : forall answer, dropAttached s = true ->
             log (step s (Drop files answer))
             = (log s ++ Confirm confirmText answer ::
                  (if answer then [ProcessFiles files (nextPromise s)] else []))%list).
  { intros answer Ha. handlers; subst; lazy beta iota zeta.
    destruct answer; lazy beta iota zeta; by rewrite <- ?app_assoc. }
  assert (HS : forall answer, files <> [] ->
             log (step s (SelectFile files answer))
             = (log s ++ Confirm confirmText answer ::
                  (if answer
                   then [ProcessFiles files (nextPromise s); ResetInputValue]
                   else [ResetInputValue]))%list).
  { intros answer Hf. destruct files as [|f files']; [done|].
    handlers; subst; cbn [length Nat.eqb]; lazy beta iota zeta.
    destruct answer; lazy beta iota zeta; by rewrite <- !app_assoc. }
  assert (HD0 : emitted s (Drop files false) = [Confirm confirmText false]
                \/ emitted s (Drop files false) = []).
  { destruct (dropAttached s) eqn:Ha.
    - left. apply emitted_eq. by rewrite HD.
    - right. apply emitted_eq. clear HD HS.
      handlers; subst; lazy beta iota zeta. by rewrite app_nil_r. }
  assert (HS0 : emitted s (SelectFile files false)
                = [Confirm confirmText false; ResetInputValue]
                \/ emitted s (SelectFile files false) = [ResetInputValue]).
  { destruct files as [|f files'].
    - right. apply emitted_eq. clear HD HS HD0. by handlers.
    - left. apply emitted_eq. by rewrite HS. }
  split; [|split; [|split; [|split; [|split; [|split]]]]].
  - intros Ha answer. eexists. apply emitted_eq. by rewrite HD.
  - intros Hf answer. eexists. apply emitted_eq. by rewrite HS.
  - intros Ha. apply emitted_eq. by rewrite HD.
  - intros Hf. apply emitted_eq. by rewrite HS.
  - clear HD HS HD0 HS0. unfold same_session.
    handlers; subst; lazy beta iota zeta; by cases.
  - clear HD HS HD0 HS0. unfold same_session.
    handlers; subst; lazy beta iota zeta; by cases.
  - intros x Hx.
    assert (x = Confirm confirmText false \/ x = ResetInputValue) as [->| ->];
      [|done|done].
    destruct HD0 as [E1|E1], HS0 as [E2|E2]; rewrite E1, E2 in Hx;
      rewrite elem_of_app, !elem_of_cons, !elem_of_nil in Hx; tauto.
Qed.

Lemma C4_declined_confirmation_aborts_witness :
  hasUnsavedAnnotations (run init edited_after_fetch) = true /\
  dropAttached (run init edited_after_fetch) = true /\
  emitted (run init edited_after_fetch) (Drop ["b.pdf"%string] false)
  = [Confirm confirmText false] /\
  same_session (run init edited_after_fetch)
    (step (run init edited_after_fetch) (Drop ["b.pdf"%string] false)).
Proof.
  assert (Hd : hasUnsavedAnnotations (run init edited_after_fetch) = true)
    by reflexivity.
  pose proof (C4_declined_confirmation_aborts
                (run init edited_after_fetch) ["b.pdf"%string] Hd)
    as (_ & _ & H3 & _ & H5 & _).
  split; [exact Hd|]. split; [reflexivity|].
  split; [apply H3; reflexivity|exact H5].
Defined.

(** ** The remote asset *)

Lemma callWs_fetched s body :
  let t := run s [ClickCallAjax; Fetched (nextPromise s) (Fulfilled body)] in
  pending t !! S (nextPromise s) = Some (WsBody body) /\
  nextPromise t = S (S (nextPromise s)) /\
  observers t = observers s /\
  log t = (log s ++ [Fetch "/assets/example.pdf" (nextPromise s)])%list.
Proof.
  cbn [run foldl]. unfold step at 2. unfold callWs. handlers; fields.
  unfold step. fields. rewrite lookup_insert_eq.
  handlers; fields. by rewrite lookup_insert_eq.
Qed.

(** What happens once the body of the response has been read. *)
Lemma ws_body_read t q body :
  reachable t ->
  pending t !! q = Some (WsBody body) ->
  let s1 := step t (BodyRead q (Fulfilled ())) in
  let s2 := step s1 (ViewerSettled (nextPromise t) (Fulfilled ())) in
  let h := length (observers t) in
  last (log s1)
    = Some (PSPDFKit_load ".App" (ArrayBuffer (concat body)) (nextPromise t)) /\
  isAlreadyLoaded s1 = true /\
  hasUnsavedAnnotations s1 = false /\
  last (log s2) = Some (AddEventListener (nextPromise t) "annotations.change" h) /\
  isAlreadyLoaded s2 = true /\
  hasUnsavedAnnotations s2 = false /\
  hasUnsavedAnnotations (step s2 (AnnotationsChange h)) = false.
Proof.
  intros Hr Hq s1 s2 h.
  assert (E1 : s1 = load (ArrayBuffer (concat body)) (settle q t)).
  { subst s1. unfold step. rewrite Hq. unfold onWsBody, Browser.arrayBuffer.
    by rewrite pump_spec. }
  destruct (load_spec (ArrayBuffer (concat body)) (settle q t))
    as (Hl & Hd & Ho & Hp & _ & Hlog).
  rewrite <- E1 in Hl, Hd, Ho, Hp, Hlog.
  change (nextPromise (settle q t)) with (nextPromise t) in Hp, Hlog.
  change (isAlreadyLoaded (settle q t)) with (isAlreadyLoaded t) in Hd, Hlog.
  change (hasUnsavedAnnotations (settle q t))
    with (hasUnsavedAnnotations t) in Hd.
  change (observers (settle q t)) with (observers t) in Ho.
  assert (Hclean : hasUnsavedAnnotations s1 = false).
  { rewrite Hd. destruct (isAlreadyLoaded t) eqn:Hlt; [done|].
    by destruct (reachable_untouched t Hr Hlt). }
  assert (Hpend : pending s1 !! nextPromise t = Some ViewerLoad).
  { rewrite Hp. apply lookup_insert_eq. }
  destruct (new_observer_cell s1 _ Hpend) as [Hcell Hd2].
  fold s2 in Hcell, Hd2. rewrite Ho in Hcell. fold h in Hcell.
  destruct (observer_first_event s2 h Hcell) as [Hd3 _].
  split. { rewrite Hlog, app_assoc. apply last_snoc. }
  split; [done|]. split; [done|].
  split.
  { subst s2. rewrite (viewer_fulfilled s1 _ Hpend). handlers; fields.
    rewrite Ho. apply last_snoc. }
  split. { by apply loaded_step. }
  split; congruence.
Qed.

(** C7. After a click on [#callajax] whose fetch succeeds, [load] receives
    the buffer made of the chunks read from the response, in order and
    unchanged; [isAlreadyLoaded] is then true and [hasUnsavedAnnotations]
    false, and they still are once the viewer has created the instance and
    delivered its initialization event. *)
Theorem C7_fetched_asset_is_loaded_clean s body :
  reachable s ->
  let p := nextPromise s in
  let s1 := run s [ClickCallAjax; Fetched p (Fulfilled body);
                   BodyRead (S p) (Fulfilled ())] in
  let s2 := step s1 (ViewerSettled (S (S p)) (Fulfilled ())) in
  let h := length (observers s) in
  last (log s1)
    = Some (PSPDFKit_load ".App" (ArrayBuffer (concat body)) (S (S p))) /\
  isAlreadyLoaded s1 = true /\
  hasUnsavedAnnotations s1 = false /\
  last (log s2) = Some (AddEventListener (S (S p)) "annotations.change" h) /\
  isAlreadyLoaded s2 = true /\
  hasUnsavedAnnotations s2 = false /\
  hasUnsavedAnnotations (step s2 (AnnotationsChange h)) = false.
Proof.
  intros Hr p s1 s2 h.
  destruct (callWs_fetched s body) as (Hq & Hn & Ho & _).
  pose proof (ws_body_read _ (S p) body (reachable_run s _ Hr) Hq) as H.
  cbv zeta in H. rewrite Hn, Ho in H. exact H.
Qed.

Lemma C7_fetched_asset_is_loaded_clean_witness :
  hasUnsavedAnnotations (run init edited_after_fetch) = true /\
  hasUnsavedAnnotations
    (run (run init edited_after_fetch)
       [ClickCallAjax; Fetched 3 (Fulfilled pdf1); BodyRead 4 (Fulfilled ())])
  = false.
Proof.
  split; [reflexivity|].
  apply (C7_fetched_asset_is_loaded_clean (run init edited_after_fetch) pdf1).
  apply reachable_run, reachable_init.
Defined.

Lemma download_fetched s body :
  let t := run s [ClickDownload; Fetched (nextPromise s) (Fulfilled body)] in
  pending t !! S (nextPromise s) = Some (DlBlob body) /\
  downloads t = downloads s.
Proof.
  cbn [run foldl]. handlers. rewrite lookup_insert_eq. lazy beta iota zeta.
  by rewrite lookup_insert_eq.
Qed.

Lemma blob_saved t q body :
  pending t !! q = Some (DlBlob body) ->
  downloads (step t (BodyRead q (Fulfilled ())))
  = (downloads t ++ [("a.pdf"%string, concat body)])%list.
Proof.
  intros Hq. unfold step. rewrite Hq. handlers.
  rewrite lookup_insert_eq. lazy beta iota zeta.
  unfold Browser.Blob_new, Browser.blob. cbn [concat]. by rewrite app_nil_r.
Qed.

(** C8. A click on [#download] whose fetch succeeds saves one file, named
    [a.pdf], whose content is the bytes of the response body, in order and
    unchanged. *)
Theorem C8_download_saves_fetched_bytes s body :
  downloads
    (run s [ClickDownload; Fetched (nextPromise s) (Fulfilled body);
            BodyRead (S (nextPromise s)) (Fulfilled ())])
  = (downloads s ++ [("a.pdf"%string, concat body)])%list.
Proof.
  destruct (download_fetched s body) as [Hq Hd].
  change (run s [ClickDownload; Fetched (nextPromise s) (Fulfilled body);
                 BodyRead (S (nextPromise s)) (Fulfilled ())])
    with (step (run s [ClickDownload; Fetched (nextPromise s) (Fulfilled body)])
            (BodyRead (S (nextPromise s)) (Fulfilled ()))).
  by rewrite (blob_saved _ _ body Hq), Hd.
Qed.

(** ** The drop zone *)

Lemma files_read s p doc :
  pending s !! p = Some DropRead \/ pending s !! p = Some PickRead ->
  step s (FilesRead p (Fulfilled doc)) = load doc (destroyDragAndDrop (settle p s)).
Proof. intros [H|H]; unfold step; by rewrite H. Qed.

Lemma drop_ignored t files answer :
  dropAttached t = false -> step t (Drop files answer) = t.
Proof. intros H. unfold step. by rewrite H. Qed.

Lemma callWs_starts_fetch t :
  pending (step t ClickCallAjax) !! nextPromise t = Some WsFetch.
Proof. handlers. apply lookup_insert_eq. Qed.

Lemma pick_starts_read t (files : list string) answer :
  files <> [] ->
  hasUnsavedAnnotations t = false \/ answer = true ->
  pending (step t (SelectFile files answer)) !! nextPromise t = Some PickRead.
Proof.
  intros Hf Hgate. destruct files as [|f files']; [done|].
  handlers; cbn [length Nat.eqb]; lazy beta iota zeta.
  destruct Hgate; subst; cases; lazy beta iota zeta; apply lookup_insert_eq.
Qed.

Lemma files_read_detaches s p doc :
  dropAttached s = destroyListener s ->
  pending s !! p = Some DropRead \/ pending s !! p = Some PickRead ->
  destroyListener (step s (FilesRead p (Fulfilled doc))) = false /\
  dropAttached (step s (FilesRead p (Fulfilled doc))) = false.
Proof.
  intros Hinv Hp. rewrite (files_read s p doc Hp). clear Hp.
  handlers; subst; lazy beta iota zeta; by cases.
Qed.

(** C10. Once [processFiles] has fulfilled for a dropped or a picked
    selection, [destroyListener] is null and the drop listener is removed,
    for good; from then on a drop changes nothing (no dialog, no read, no
    load), while a click on [#callajax] still starts a fetch and a
    non-empty selection in the picker still starts a read. *)
Theorem C10_drop_zone_is_one_shot s p doc :
  reachable s ->
  pending s !! p = Some DropRead \/ pending s !! p = Some PickRead ->
  let s1 := step s (FilesRead p (Fulfilled doc)) in
  destroyListener s1 = false /\
  dropAttached s1 = false /\
  (forall es, destroyListener (run s1 es) = false) /\
  (forall es files answer,
      step (run s1 es) (Drop files answer) = run s1 es) /\
  (forall es,
      let t := run s1 es in
      pending (step t ClickCallAjax) !! nextPromise t = Some WsFetch) /\
  (forall es (files : list string) answer,
      let t := run s1 es in
      files <> [] ->
      hasUnsavedAnnotations t = false \/ answer = true ->
      pending (step t (SelectFile files answer)) !! nextPromise t
      = Some PickRead).
Proof.
  intros Hr Hp s1.
  destruct (files_read_detaches s p doc (reachable_drop_handle s Hr) Hp)
    as [Hh Ha].
  split; [done|]. split; [done|].
  split; [intros es; by apply handle_null_run|].
  split; [intros es files answer; by apply drop_ignored, detached_run|].
  split.
  - intros es t. apply callWs_starts_fetch.
  - intros es files answer t. apply pick_starts_read.
Qed.

Lemma C10_drop_zone_is_one_shot_witness :
  pending (run init [Drop ["a.pdf"%string] true]) !! 0 = Some DropRead /\
  step (run init [Drop ["a.pdf"%string] true;
                  FilesRead 0 (Fulfilled (ArrayBuffers pdf1))])
       (Drop ["b.pdf"%string] true)
  = run init [Drop ["a.pdf"%string] true;
              FilesRead 0 (Fulfilled (ArrayBuffers pdf1))].
Proof.
  split; [reflexivity|].
  pose proof (C10_drop_zone_is_one_shot
                (run init [Drop ["a.pdf"%string] true]) 0 (ArrayBuffers pdf1)
                (reachable_run init _ reachable_init) (or_introl eq_refl))
    as (_ & _ & _ & H & _).
  exact (H [] ["b.pdf"%string] true).
Defined.

(** ** The remote fetch bypasses the confirmation gate *)

(** C1 fails on [callWs]: in a reachable state with unsaved edits, a click
    on [#callajax] tears the instance down and clears
    [hasUnsavedAnnotations] although [window.confirm] was never called. *)
Lemma C1_callWs_discards_edits_unasked :
  hasUnsavedAnnotations (run init edited_after_fetch) = true /\
  hasUnsavedAnnotations (run init fetch_over_edits) = false /\
  drop (length (log (run init edited_after_fetch)))
       (log (run init fetch_over_edits))
  = [Fetch "/assets/example.pdf" 3;
     ConsoleInfo "Destroyed previous instance";
     PSPDFKit_unload ".App";
     PSPDFKit_load ".App" (ArrayBuffer (concat pdf1)) 5] /\
  (forall text answer, Confirm text answer ∉ log (run init fetch_over_edits)).
Proof.
  split; [reflexivity|]. split; [reflexivity|]. split; [reflexivity|].
  intros text answer.
  replace (log (run init fetch_over_edits))
    with [Fetch "/assets/example.pdf" 0;
          PSPDFKit_load ".App" (ArrayBuffer (concat pdf1)) 2;
          AddEventListener 2 "annotations.change" 0;
          Fetch "/assets/example.pdf" 3;
          ConsoleInfo "Destroyed previous instance";
          PSPDFKit_unload ".App";
          PSPDFKit_load ".App" (ArrayBuffer (concat pdf1)) 5]
    by (vm_compute; reflexivity).
  repeat (apply not_elem_of_cons; split; [discriminate|]).
  apply not_elem_of_nil.
Qed.

(** ** Further properties of the entry file *)

(** *** Rejected promises *)

Ltac emitted_norm :=
  rewrite <- ?app_assoc;
  first [rewrite drop_app_length | rewrite drop_all].

(** Membership in an explicit list of effects. *)
Ltac members :=
  rewrite ?elem_of_app, ?elem_of_cons, ?elem_of_nil;
  solve [intuition (try discriminate; try congruence; eauto)].

(** X1. Whatever promise rejects (file read, fetch, body, viewer), both
    flags, the observers and the drop zone stay as they are, and the viewer
    is neither unloaded nor loaded. *)
Theorem rejection_keeps_viewer_session s e :
  is_rejection e = true ->
  same_viewer_session s (step s e) /\
  downloads (step s e) = downloads s /\
  occurrences is_load (emitted s e) = 0 /\
  occurrences is_unload (emitted s e) = 0.
Proof.
  intros He. unfold same_viewer_session, emitted.
  destruct e as [| | | |p r|p r|p r|p r|]; try done; destruct r; try done;
    clear He; handlers; cases; emitted_norm; done.
Qed.

Lemma rejection_keeps_viewer_session_witness :
  is_rejection (FilesRead 0 (Rejected "unreadable")) = true /\
  same_viewer_session (run init [Drop ["a.pdf"%string] true])
    (step (run init [Drop ["a.pdf"%string] true])
       (FilesRead 0 (Rejected "unreadable"))).
Proof.
  split; [reflexivity|].
  apply (rejection_keeps_viewer_session
           (run init [Drop ["a.pdf"%string] true])
           (FilesRead 0 (Rejected "unreadable"))).
  reflexivity.
Defined.

(** X2. How a rejection is reported depends on the promise: a file read
    that fails is shown with [alert], a viewer load that fails goes to
    [console.error], and a failed fetch or body read of [callWs] or
    [download] is reported nowhere. *)
Theorem rejection_reports s p message :
  (pending s !! p = Some DropRead \/ pending s !! p = Some PickRead ->
   emitted s (FilesRead p (Rejected message)) = [Alert message]) /\
  (pending s !! p = Some ViewerLoad ->
   emitted s (ViewerSettled p (Rejected message)) = [ConsoleError message]) /\
  (forall r, emitted s (Fetched p (Rejected message)) = [] /\
             emitted s (BodyRead p (Rejected r)) = []).
Proof.
  split; [|split].
  - intros [H|H]; apply emitted_eq; unfold step; by rewrite H.
  - intros H. apply emitted_eq. unfold step. by rewrite H.
  - intros r. unfold emitted. split; handlers; cases; by emitted_norm.
Qed.

Lemma rejection_reports_witness :
  pending (run init [Drop ["a.pdf"%string] true]) !! 0 = Some DropRead /\
  emitted (run init [Drop ["a.pdf"%string] true])
    (FilesRead 0 (Rejected "unreadable")) = [Alert "unreadable"].
Proof.
  split; [reflexivity|].
  apply (proj1 (rejection_reports (run init [Drop ["a.pdf"%string] true])
                  0 "unreadable")).
  left. reflexivity.
Defined.

(** *** What raises the flag, what shows the dialog, what removes the drop
    zone *)

(** X3. [hasUnsavedAnnotations] goes from false to true only when an
    observer that has already seen its first event is called: no load,
    fetch, download, drop or selection sets it. *)
Theorem dirty_only_by_initialized_observer s e :
  hasUnsavedAnnotations s = false ->
  hasUnsavedAnnotations (step s e) = true ->
  exists h, e = AnnotationsChange h /\ observers s !! h = Some true.
Proof.
  intros Hs. destruct e; handlers; subst; lazy beta iota zeta; cases;
    try done.
  intros _. by eexists.
Qed.

Lemma dirty_only_by_initialized_observer_witness :
  hasUnsavedAnnotations (run init opened_by_fetch) = false /\
  hasUnsavedAnnotations (step (run init opened_by_fetch) (AnnotationsChange 0))
  = true /\
  exists h, AnnotationsChange 0 = AnnotationsChange h /\
            observers (run init opened_by_fetch) !! h = Some true.
Proof.
  split; [reflexivity|]. split; [reflexivity|].
  apply (dirty_only_by_initialized_observer (run init opened_by_fetch)
           (AnnotationsChange 0)); reflexivity.
Defined.

(** X4. The drop zone is removed only by a file read that succeeds, for a
    dropped or a picked selection; a document loaded from the server
    leaves it in place. *)
Theorem drop_zone_removed_only_by_file_read s e :
  dropAttached s = true ->
  dropAttached (step s e) = false ->
  exists p doc,
    e = FilesRead p (Fulfilled doc) /\
    (pending s !! p = Some DropRead \/ pending s !! p = Some PickRead).
Proof.
  intros Hs. destruct e; handlers; subst; lazy beta iota zeta; cases;
    try done; intros _; eexists _, _; (split; [done|]);
    first [by left | by right].
Qed.

Lemma drop_zone_removed_only_by_file_read_witness :
  dropAttached (run init edited_after_fetch) = true /\
  dropAttached (run init [Drop ["a.pdf"%string] true]) = true /\
  exists p doc,
    FilesRead 0 (Fulfilled (ArrayBuffers pdf1)) = FilesRead p (Fulfilled doc) /\
    (pending (run init [Drop ["a.pdf"%string] true]) !! p = Some DropRead \/
     pending (run init [Drop ["a.pdf"%string] true]) !! p = Some PickRead).
Proof.
  split; [reflexivity|]. split; [reflexivity|].
  apply (drop_zone_removed_only_by_file_read
           (run init [Drop ["a.pdf"%string] true])
           (FilesRead 0 (Fulfilled (ArrayBuffers pdf1)))); reflexivity.
Defined.

(** X5. [window.confirm] is only ever called from the drop handler or from
    the picker's change handler (there for a non-empty selection), only with
    unsaved annotations, and always with the same text. *)
Theorem confirm_only_on_drop_or_selection s e text answer :
  Confirm text answer ∈ emitted s e ->
  hasUnsavedAnnotations s = true /\
  text = confirmText /\
  ((exists files, e = Drop files answer /\ dropAttached s = true) \/
   (exists files, e = SelectFile files answer /\ files <> [])).
Proof.
  unfold emitted.
  destruct e as [files a|files a| | | | | | |];
    try (handlers; cases; emitted_norm;
         members).
  - handlers; cases; emitted_norm; rewrite ?elem_of_app, ?elem_of_cons, ?elem_of_nil;
      intros H; destruct_or?; simplify_eq;
      (split; [done|split; [done|left; by eexists]]).
  - destruct files as [|f files'];
      handlers; cbn [length Nat.eqb]; lazy beta iota zeta; cases;
      emitted_norm; rewrite ?elem_of_app, ?elem_of_cons, ?elem_of_nil;
      intros H; destruct_or?; simplify_eq;
      (split; [done|split; [done|right; by eexists]]).
Qed.

Lemma confirm_only_on_drop_or_selection_witness :
  Confirm confirmText false
    ∈ emitted (run init edited_after_fetch) (Drop ["b.pdf"%string] false) /\
  hasUnsavedAnnotations (run init edited_after_fetch) = true.
Proof.
  assert (H : Confirm confirmText false
                ∈ emitted (run init edited_after_fetch)
                    (Drop ["b.pdf"%string] false)).
  { replace (emitted (run init edited_after_fetch)
               (Drop ["b.pdf"%string] false))
      with [Confirm confirmText false] by (vm_compute; reflexivity).
    apply elem_of_cons. left. reflexivity. }
  split; [exact H|].
  apply (confirm_only_on_drop_or_selection _ _ _ _ H).
Defined.

(** X6. A drop (with the drop zone in place) or a non-empty selection
    starts reading the files exactly when there are no unsaved annotations
    or the user confirmed. *)
Theorem read_starts_iff_clean_or_confirmed s (files : list string) answer :
  files <> [] ->
  (dropAttached s = true ->
   ProcessFiles files (nextPromise s) ∈ emitted s (Drop files answer)
   <-> hasUnsavedAnnotations s = false \/ answer = true) /\
  (ProcessFiles files (nextPromise s) ∈ emitted s (SelectFile files answer)
   <-> hasUnsavedAnnotations s = false \/ answer = true).
Proof.
  intros Hf. unfold emitted. destruct files as [|f files']; [done|]. clear Hf.
  split; [intros Ha|];
    handlers; subst; cbn [length Nat.eqb]; lazy beta iota zeta; cases;
    emitted_norm; members.
Qed.

Lemma read_starts_iff_clean_or_confirmed_witness :
  ["a.pdf"%string] <> [] /\
  (ProcessFiles ["a.pdf"%string] 0 ∈ emitted init (SelectFile ["a.pdf"%string] false)
   <-> hasUnsavedAnnotations init = false \/ false = true).
Proof.
  split; [discriminate|].
  apply (read_starts_iff_clean_or_confirmed init ["a.pdf"%string] false).
  discriminate.
Defined.

(** X7. The picker's change handler always ends by resetting the input's
    value; with an empty selection that is all it does, unsaved annotations
    or not: no dialog, no read. *)
Theorem picker_always_resets_input s (files : list string) answer :
  last (log (step s (SelectFile files answer))) = Some ResetInputValue /\
  step s (SelectFile [] answer) = emit ResetInputValue s.
Proof.
  split; [|done].
  destruct files as [|f files'];
    handlers; cbn [length Nat.eqb]; lazy beta iota zeta; cases;
    apply last_snoc.
Qed.

(** X8. When a file read succeeds, [load] runs unconditionally with the
    whole value [processFiles] resolved with: the confirmation is not asked
    again, so annotations edited while the files were being read are
    discarded, and [hasUnsavedAnnotations] is false afterwards. *)
Theorem file_read_loads_unconditionally s p doc :
  reachable s ->
  pending s !! p = Some DropRead \/ pending s !! p = Some PickRead ->
  let s1 := step s (FilesRead p (Fulfilled doc)) in
  last (log s1) = Some (PSPDFKit_load ".App" doc (nextPromise s)) /\
  pending s1 !! nextPromise s = Some ViewerLoad /\
  isAlreadyLoaded s1 = true /\
  hasUnsavedAnnotations s1 = false /\
  (forall text answer,
      Confirm text answer ∉ emitted s (FilesRead p (Fulfilled doc))).
Proof.
  intros Hr Hp s1.
  assert (Hclean : isAlreadyLoaded s = false -> hasUnsavedAnnotations s = false).
  { intros Hl. by destruct (reachable_untouched s Hr Hl). }
  split; [|split; [|split; [|split]]].
  - subst s1. rewrite (files_read s p doc Hp).
    destruct (load_spec doc (destroyDragAndDrop (settle p s)))
      as (_ & _ & _ & _ & _ & ->).
    rewrite app_assoc.
    replace (nextPromise (destroyDragAndDrop (settle p s)))
      with (nextPromise s); [apply last_snoc|].
    clear. handlers. by cases.
  - subst s1. rewrite (files_read s p doc Hp).
    destruct (load_spec doc (destroyDragAndDrop (settle p s)))
      as (_ & _ & _ & -> & _).
    replace (nextPromise (destroyDragAndDrop (settle p s)))
      with (nextPromise s); [apply lookup_insert_eq|].
    clear. handlers. by cases.
  - subst s1. rewrite (files_read s p doc Hp). apply load_spec.
  - subst s1. rewrite (files_read s p doc Hp). clear Hr Hp.
    handlers. cases; try done; by apply Hclean.
  - intros text answer. unfold emitted. clear Hr Hclean.
    destruct Hp as [H|H]; unfold step; rewrite H; clear H;
      handlers; cases; emitted_norm;
      members.
Qed.

Lemma file_read_loads_unconditionally_witness :
  hasUnsavedAnnotations
    (run init edited_while_reading) = true /\
  hasUnsavedAnnotations
    (step (run init edited_while_reading)
       (FilesRead 0 (Fulfilled (ArrayBuffers pdf1)))) = false.
Proof.
  split; [reflexivity|].
  apply (file_read_loads_unconditionally
           (run init edited_while_reading)
           0 (ArrayBuffers pdf1)).
  - apply reachable_run, reachable_init.
  - right. reflexivity.
Defined.


(** *** The copy loop of [callWs] *)

(** X9. The loop that re-streams the response enqueues every chunk once,
    in the order read, after what the queue already holds; an empty body
    gives an empty buffer, and the buffer handed to [load] is the
    concatenation of the chunks. *)
Theorem stream_copy_keeps_chunks (reader queue : list Bytes) :
  pump reader queue = (queue ++ reader)%list /\
  length (pump reader queue) = length queue + length reader /\
  Browser.arrayBuffer (pump reader []) = concat reader /\
  Browser.arrayBuffer (pump [] []) = [].
Proof.
  assert (H : forall r q, pump r q = (q ++ r)%list).
  { induction r as [|v r IH]; intros q; cbn [pump].
    - by rewrite app_nil_r.
    - by rewrite IH, <- app_assoc. }
  split; [apply H|]. split; [by rewrite H, length_app|].
  split; [by rewrite H|done].
Qed.

(** *** Invariants of the log *)

Lemma occurrences_app p (l k : list Effect) :
  occurrences p (l ++ k) = occurrences p l + occurrences p k.
Proof.
  induction l as [|e l IH]; [done|]. cbn [app occurrences]. rewrite IH. lia.
Qed.

Ltac tally :=
  rewrite ?occurrences_app;
  cbn [occurrences is_load is_unload is_remove_drop Nat.add] in *;
  try lia.

Lemma remove_drop_step s e :
  occurrences is_remove_drop (log s) = (if destroyListener s then 0 else 1) ->
  occurrences is_remove_drop (log (step s e))
  = (if destroyListener (step s e) then 0 else 1).
Proof. intros H. destruct e; handlers; cases; tally. Qed.

(** X10. In a whole session the cleanup function returned by [dragDrop] is
    called at most once: it has been called exactly when [destroyListener]
    is null, and [destroyDragAndDrop] called again does nothing. *)
Theorem drop_listener_destroyed_at_most_once s :
  reachable s ->
  occurrences is_remove_drop (log s) = (if destroyListener s then 0 else 1) /\
  occurrences is_remove_drop (log s) <= 1 /\
  destroyDragAndDrop (destroyDragAndDrop s) = destroyDragAndDrop s.
Proof.
  intros Hr.
  assert (H : occurrences is_remove_drop (log s)
              = (if destroyListener s then 0 else 1)).
  { induction Hr as [|s e _ IH]; [done|]. by apply remove_drop_step. }
  split; [done|]. split.
  - rewrite H. destruct (destroyListener s); lia.
  - clear. handlers. by cases.
Qed.

Lemma drop_listener_destroyed_at_most_once_witness :
  occurrences is_remove_drop
    (log (run init [Drop ["a.pdf"%string] true;
                    SelectFile ["b.pdf"%string] true;
                    FilesRead 0 (Fulfilled (ArrayBuffers pdf1));
                    FilesRead 1 (Fulfilled (ArrayBuffers pdf1))])) <= 1.
Proof.
  apply (drop_listener_destroyed_at_most_once
           (run init [Drop ["a.pdf"%string] true;
                      SelectFile ["b.pdf"%string] true;
                      FilesRead 0 (Fulfilled (ArrayBuffers pdf1));
                      FilesRead 1 (Fulfilled (ArrayBuffers pdf1))])).
  apply reachable_run, reachable_init.
Defined.

Lemma load_balance_step s e :
  occurrences is_load (log s)
  = occurrences is_unload (log s) + (if isAlreadyLoaded s then 1 else 0) ->
  occurrences is_load (log (step s e))
  = occurrences is_unload (log (step s e))
    + (if isAlreadyLoaded (step s e) then 1 else 0).
Proof. intros H. destruct e; handlers; cases; tally. Qed.

(** X11. The viewer is never unloaded before the first [PSPDFKit.load] and
    is unloaded exactly once between two consecutive calls of it: the log
    holds one [PSPDFKit.unload] less than [PSPDFKit.load] once [load] has run,
    and none of either before; [isAlreadyLoaded] is true exactly when
    [PSPDFKit.load] has been called. *)
Theorem unload_once_between_loads s :
  reachable s ->
  occurrences is_load (log s)
  = occurrences is_unload (log s) + (if isAlreadyLoaded s then 1 else 0) /\
  (isAlreadyLoaded s = true <-> 0 < occurrences is_load (log s)) /\
  (isAlreadyLoaded s = false -> occurrences is_unload (log s) = 0).
Proof.
  intros Hr.
  assert (H : occurrences is_load (log s)
              = occurrences is_unload (log s)
                + (if isAlreadyLoaded s then 1 else 0)).
  { induction Hr as [|s e _ IH]; [done|]. by apply load_balance_step. }
  assert (H0 : isAlreadyLoaded s = false -> occurrences is_load (log s) = 0).
  { clear H. induction Hr as [|s e Hr IH]; [done|].
    destruct (isAlreadyLoaded s) eqn:Hl.
    - intros Hc. by rewrite (loaded_step s e Hl) in Hc.
    - specialize (IH eq_refl). revert IH Hl. clear Hr.
      destruct e; handlers; intros IH Hl; subst; lazy beta iota zeta; cases;
        try done; intros _; tally. }
  split; [done|]. split; [|intros Hl; specialize (H0 Hl); rewrite Hl in H; lia].
  destruct (isAlreadyLoaded s) eqn:Hl.
  - split; [intros _; lia|done].
  - specialize (H0 eq_refl). split; [done|lia].
Qed.

Lemma unload_once_between_loads_witness :
  occurrences is_load (log (run init fetch_over_edits)) = 2 /\
  occurrences is_unload (log (run init fetch_over_edits)) = 1 /\
  occurrences is_load (log (run init fetch_over_edits))
  = occurrences is_unload (log (run init fetch_over_edits))
    + (if isAlreadyLoaded (run init fetch_over_edits) then 1 else 0).
Proof.
  split; [reflexivity|]. split; [reflexivity|].
  apply (unload_once_between_loads (run init fetch_over_edits)).
  apply reachable_run, reachable_init.
Defined.

(** *** [download] *)

Lemma urls_step s e : objectURLs s = ∅ -> objectURLs (step s e) = ∅.
Proof.
  intros H. destruct e; handlers; subst; cases; try done;
    by rewrite delete_insert_eq, delete_empty.
Qed.

(** X12. [download] revokes the object URL it creates before it returns:
    between two handlers no object URL of the page is outstanding. *)
Theorem no_object_url_outlives_download s :
  reachable s -> objectURLs s = ∅.
Proof.
  induction 1 as [|s e _ IH]; [done|]. by apply urls_step.
Qed.

Lemma no_object_url_outlives_download_witness :
  downloads (run init [ClickDownload; Fetched 0 (Fulfilled pdf1);
                       BodyRead 1 (Fulfilled ())])
  = [("a.pdf"%string, concat pdf1)] /\
  objectURLs (run init [ClickDownload; Fetched 0 (Fulfilled pdf1);
                        BodyRead 1 (Fulfilled ())]) = ∅.
Proof.
  split; [reflexivity|].
  apply (no_object_url_outlives_download
           (run init [ClickDownload; Fetched 0 (Fulfilled pdf1);
                      BodyRead 1 (Fulfilled ())])).
  apply reachable_run, reachable_init.
Defined.

Lemma saved_step s e :
  downloads (step s e) = downloads s \/
  exists p body,
    e = BodyRead p (Fulfilled ()) /\
    pending s !! p = Some (DlBlob body) /\
    downloads (step s e)
    = (downloads s ++ [("a.pdf"%string, concat body)])%list.
Proof.
  destruct e as [| | | | | |p [[]|]| |];
    handlers; cases; try (by left);
    match goal with
    | H : <[_:=_]> _ !! _ = _ |- _ =>
        rewrite lookup_insert_eq in H; simplify_eq
    end;
    right; eexists _, _; (split; [done|]); (split; [done|]);
    unfold Browser.Blob_new, Browser.blob; cbn [concat]; by rewrite app_nil_r.
Qed.

(** X13. A file is saved only when the blob of a [download] has been read:
    no other handler saves anything, the file is then appended to what was
    saved before, and every file the page ever saves is named [a.pdf]. *)
Theorem files_saved_only_by_download s :
  reachable s ->
  (forall f, f ∈ downloads s -> f.1 = "a.pdf"%string) /\
  (forall e,
      downloads (step s e) <> downloads s ->
      exists p body,
        e = BodyRead p (Fulfilled ()) /\
        pending s !! p = Some (DlBlob body) /\
        downloads (step s e)
        = (downloads s ++ [("a.pdf"%string, concat body)])%list).
Proof.
  intros Hr. split.
  - induction Hr as [|s e _ IH]; [intros f Hf; by apply elem_of_nil in Hf|].
    intros f Hf.
    destruct (saved_step s e) as [Heq|(p & body & _ & _ & Hd)].
    + rewrite Heq in Hf. by apply IH.
    + rewrite Hd in Hf. apply elem_of_app in Hf as [Hf|Hf]; [by apply IH|].
      apply elem_of_cons in Hf as [->|Hf]; [done|by apply elem_of_nil in Hf].
  - intros e Hne. by destruct (saved_step s e) as [Heq|H].
Qed.

Lemma files_saved_only_by_download_witness :
  ("a.pdf"%string, concat pdf1)
    ∈ downloads (run init [ClickDownload; Fetched 0 (Fulfilled pdf1);
                           BodyRead 1 (Fulfilled ())]) /\
  (("a.pdf"%string, concat pdf1) : string * Bytes).1 = "a.pdf"%string.
Proof.
  assert (H : ("a.pdf"%string, concat pdf1)
                ∈ downloads (run init [ClickDownload; Fetched 0 (Fulfilled pdf1);
                                       BodyRead 1 (Fulfilled ())])).
  { replace (downloads (run init [ClickDownload; Fetched 0 (Fulfilled pdf1);
                                  BodyRead 1 (Fulfilled ())]))
      with [("a.pdf"%string, concat pdf1)] by (vm_compute; reflexivity).
    apply elem_of_cons. left. reflexivity. }
  split; [exact H|].
  exact (proj1 (files_saved_only_by_download _
                  (reachable_run init _ reachable_init)) _ H).
Defined.

(** X14. A download does not touch the viewer: whatever document is open
    and whether it has unsaved annotations, the flags, the observers and the
    drop zone are the same after the three stages of [download], and the
    page only fetches, appends the link, removes it after the click and
    revokes the URL, in that order. *)
Theorem download_leaves_viewer_alone s body :
  let s1 := run s [ClickDownload; Fetched (nextPromise s) (Fulfilled body);
                   BodyRead (S (nextPromise s)) (Fulfilled ())] in
  same_viewer_session s s1 /\
  log s1 = (log s ++ [Fetch "/assets/example.pdf" (nextPromise s);
                      AppendChild (nextURL s) "a.pdf";
                      RemoveChild (nextURL s);
                      RevokeObjectURL (nextURL s)])%list.
Proof.
  unfold same_viewer_session. cbn [run foldl]. handlers.
  rewrite lookup_insert_eq. lazy beta iota zeta.
  rewrite lookup_insert_eq. lazy beta iota zeta.
  rewrite lookup_insert_eq. lazy beta iota zeta.
  by rewrite <- !app_assoc.
Qed.

(** *** The flag and the viewer *)

(** X15. [hasUnsavedAnnotations] is true only in a session where [load]
    has run and some observer has seen its first event. *)
Theorem dirty_needs_initialized_observer s :
  reachable s ->
  hasUnsavedAnnotations s = true ->
  isAlreadyLoaded s = true /\
  exists h, h < length (observers s) /\ observers s !! h = Some true.
Proof.
  intros Hr Hd. split; [by apply dirty_is_loaded|].
  destruct (proj1 (list_elem_of_lookup _ _) (reachable_dirty s Hr Hd))
    as [h Hh].
  exists h. split; [by eapply lookup_lt_Some|done].
Qed.

Lemma dirty_needs_initialized_observer_witness :
  hasUnsavedAnnotations (run init edited_after_fetch) = true /\
  isAlreadyLoaded (run init edited_after_fetch) = true.
Proof.
  split; [reflexivity|].
  apply (dirty_needs_initialized_observer (run init edited_after_fetch)).
  - apply reachable_run, reachable_init.
  - reflexivity.
Defined.
